(** * tryCatch.js: result-typed wrappers around fallible computations

    A shallow embedding of [src/tryCatch.ts] and of its compiled CommonJS
    form [dist/cjs/tryCatch.js], and the properties of the two wrappers
    [tryCatch] (promises) and [tryCatchSync] (thunks).

    - JavaScript values are the primitives and references to heap objects.
    - Synchronous code lives in [Exec W]: it threads a world [W] (heap,
      console, counters: whatever the callback can touch) and completes
      either normally or abruptly with a thrown value.  A throw keeps the
      world changes made before it, as in JavaScript.
    - The body of an [async] function lives in [Async]: a coroutine that
      returns, throws, or suspends on a promise at an [await]; [async] runs
      it against the settled state of the promises it awaits and gives the
      state of the promise the function returned.
    - [try { ... } catch (e) { ... }] is the [catch] of ExtLib's [MonadExc],
      instantiated for both monads. *)

From Stdlib Require Import ZArith String List Bool.
From ExtLib Require Import Structures.Monad Structures.MonadExc.
Import ListNotations.
Import MonadNotation.
Local Open Scope monad_scope.
Local Open Scope string_scope.

Set Implicit Arguments.

(* ===================================================================== *)
(** ** JavaScript values *)
(* ===================================================================== *)

(** A reference to an object on the heap.  Two references are the same
    object exactly when they are equal. *)
Definition Loc := nat.

(** Runtime values.  Numbers are the integer-valued ones: the wrappers never
    compute on a number, they only carry it. *)
Inductive Value : Type :=
| VUndefined
| VNull
| VBoolean (b : bool)
| VNumber (n : Z)
| VBigInt (n : Z)
| VString (s : string)
| VSymbol (id : nat)
| VObject (ref : Loc).

(** The absence-value of the Result model is [null]. *)
Definition absent (v : Value) : bool :=
  match v with VNull => true | _ => false end.

Definition populated (v : Value) : bool := negb (absent v).

(* ===================================================================== *)
(** ** Heap objects (used by the concrete scenarios) *)
(* ===================================================================== *)

(** The constructor an object was made by. *)
Inductive Class : Type :=
| CObject
| CError
| CRangeError
| CSyntaxError
| CTypeError.

Record Obj : Type := mkObj
  { obj_class : Class
  ; obj_props : list (string * Value) }.

(** A heap is the list of the objects allocated so far; an object's
    reference is its index. *)
Definition Heap := list Obj.

Definition deref (h : Heap) (l : Loc) : option Obj := nth_error h l.

(** [v instanceof Error]: an object whose class is [Error] or one of its
    subclasses. *)
Definition instanceof_Error (h : Heap) (v : Value) : bool :=
  match v with
  | VObject l =>
      match deref h l with
      | Some o =>
          match obj_class o with
          | CObject => false
          | _ => true
          end
      | None => false
      end
  | _ => false
  end.

(* ===================================================================== *)
(** ** Synchronous computations *)
(* ===================================================================== *)

(** How a piece of code completes: normally with a value, or abruptly by
    [throw]. *)
Inductive Completion (A : Type) : Type :=
| Normal (a : A)
| Throw (c : Value).

Arguments Normal {A} a.
Arguments Throw {A} c.

Section Exec.
Variable W : Type.

(** A computation over the world [W]: run from a world, it completes and
    leaves a world behind. *)
Record Exec (A : Type) : Type := mkExec
  { runExec : W -> Completion A * W }.

Definition Exec_ret {A} (a : A) : Exec A :=
  mkExec (fun w => (Normal a, w)).

Definition Exec_bind {A B} (m : Exec A) (f : A -> Exec B) : Exec B :=
  mkExec (fun w =>
    match runExec m w with
    | (Normal a, w') => runExec (f a) w'
    | (Throw c, w') => (Throw c, w')
    end).

(** [throw c] *)
Definition Exec_raise {A} (c : Value) : Exec A :=
  mkExec (fun w => (Throw c, w)).

(** [try { m } catch (e) { h e }]: the handler starts in the world the
    body left behind. *)
Definition Exec_catch {A} (m : Exec A) (h : Value -> Exec A) : Exec A :=
  mkExec (fun w =>
    match runExec m w with
    | (Normal a, w') => (Normal a, w')
    | (Throw c, w') => runExec (h c) w'
    end).

#[global] Instance Monad_Exec : Monad Exec :=
  { ret := @Exec_ret; bind := @Exec_bind }.

#[global] Instance MonadExc_Exec : MonadExc Value Exec :=
  { raise := @Exec_raise; catch := @Exec_catch }.

(** [f()]: calling a zero-argument function runs its body. *)
Definition call (f : Exec Value) : Exec Value := f.
End Exec.

(** A zero-argument function [() => T] over the world [W]. *)
Abbreviation Thunk W := (Exec W Value) (only parsing).

Arguments mkExec {W A} _.
Arguments runExec {W A} _ _.

(* ===================================================================== *)
(** ** Promises and async functions *)
(* ===================================================================== *)

(** The state of a promise once everything that will settle has settled:
    the [[PromiseState]] and [[PromiseResult]] slots.  [Pending] is a
    promise that never settles. *)
Inductive Promise (T : Type) : Type :=
| Pending
| Fulfilled (value : T)
| Rejected (reason : Value).

Arguments Pending {T}.
Arguments Fulfilled {T} value.
Arguments Rejected {T} reason.

(** The body of an async function, as a coroutine: it returns, throws, or
    is suspended at an [await] on promise [p], to be resumed by [k] with a
    value or with a throw at the point of the [await]. *)
Inductive Async (A : Type) : Type :=
| Done (a : A)
| Failed (c : Value)
| Suspend (p : Promise Value) (k : Completion Value -> Async A).

Arguments Done {A} a.
Arguments Failed {A} c.
Arguments Suspend {A} p k.

Fixpoint Async_bind {A B} (m : Async A) (f : A -> Async B) : Async B :=
  match m with
  | Done a => f a
  | Failed c => Failed c
  | Suspend p k => Suspend p (fun r => Async_bind (k r) f)
  end.

(** [try { m } catch (e) { h e }] around code that may await: a rejection
    of the awaited promise is thrown inside the [try]. *)
Fixpoint Async_catch {A} (m : Async A) (h : Value -> Async A) : Async A :=
  match m with
  | Done a => Done a
  | Failed c => h c
  | Suspend p k => Suspend p (fun r => Async_catch (k r) h)
  end.

#[global] Instance Monad_Async : Monad Async :=
  { ret := @Done; bind := @Async_bind }.

#[global] Instance MonadExc_Async : MonadExc Value Async :=
  { raise := @Failed; catch := @Async_catch }.

(** [await p]: evaluates to the fulfilment value of [p], throws its
    rejection reason. *)
Definition await (p : Promise Value) : Async Value :=
  Suspend p (fun r =>
    match r with
    | Normal v => Done v
    | Throw c => Failed c
    end).

(** Calling an async function gives a promise: fulfilled with what the
    body returns, rejected with what it throws and does not catch, pending
    while the body waits on a promise that does not settle. *)
Fixpoint async {A} (body : Async A) : Promise A :=
  match body with
  | Done a => Fulfilled a
  | Failed c => Rejected c
  | Suspend p k =>
      match p with
      | Pending => Pending
      | Fulfilled v => async (k (Normal v))
      | Rejected c => async (k (Throw c))
      end
  end.

(* ===================================================================== *)
(** ** The TypeScript source: [src/tryCatch.ts] *)
(* ===================================================================== *)

Module TypeScript.

(** [type Result<T, E> = Success<T> | Failure<E>], at run time: the type
    parameters are erased and [data] and [error] hold any value. *)
Record Result : Type := mkResult
  { data : Value
  ; error : Value
  ; success : bool }.

(** [interface Success<T> { data: T; error: null; success: true }] *)
Definition Success (r : Result) : Prop :=
  error r = VNull /\ success r = true.

(** [interface Failure<E> { data: null; error: E; success: false }] *)
Definition Failure (r : Result) : Prop :=
  data r = VNull /\ success r = false.

(** [error as E]: a type assertion, erased at run time. *)
Definition as_E (error : Value) : Value := error.

Definition tryCatch (promise : Promise Value) : Promise Result :=
  async (
    catch
      (result <- await promise ;;
       ret {| data := result; error := VNull; success := true |})
      (fun error =>
       ret {| data := VNull; error := as_E error; success := false |})).

Definition tryCatchSync {W} (callback : Thunk W) : Exec W Result :=
  catch
    (result <- call callback ;;
     ret {| data := result; error := VNull; success := true |})
    (fun error =>
     ret {| data := VNull; error := as_E error; success := false |}).

End TypeScript.

(* ===================================================================== *)
(** ** The compiled module: [dist/cjs/tryCatch.js] *)
(* ===================================================================== *)

Module CommonJS.

(** A plain object, as an object literal builds it: its own data
    properties, in the order they were written. *)
Definition JsObject : Type := list (string * Value).

(** [o.key]: the value of the property, [undefined] when the object has no
    such property. *)
Fixpoint get (o : JsObject) (key : string) : Value :=
  match o with
  | [] => VUndefined
  | (k, v) :: o' => if String.eqb k key then v else get o' key
  end.

Definition keys (o : JsObject) : list string := map fst o.

Definition tryCatch (promise : Promise Value) : Promise JsObject :=
  async (
    catch
      (result <- await promise ;;
       ret [ ("data", result)
           ; ("error", VNull)
           ; ("success", VBoolean true) ])
      (fun error =>
       ret [ ("data", VNull)
           ; ("error", error)
           ; ("success", VBoolean false) ])).

Definition tryCatchSync {W} (callback : Thunk W) : Exec W JsObject :=
  catch
    (result <- call callback ;;
     ret [ ("data", result)
         ; ("error", VNull)
         ; ("success", VBoolean true) ])
    (fun error =>
     ret [ ("data", VNull)
         ; ("error", error)
         ; ("success", VBoolean false) ]).

End CommonJS.

(* ===================================================================== *)
(** ** Reading a Result *)
(* ===================================================================== *)

Import TypeScript.

(** The three properties of a Result. *)
Inductive Field : Type := Fdata | Ferror | Fsuccess.

Definition field_name (f : Field) : string :=
  match f with
  | Fdata => "data"
  | Ferror => "error"
  | Fsuccess => "success"
  end.

(** The value a read of property [f] evaluates to. *)
Definition field (r : Result) (f : Field) : Value :=
  match f with
  | Fdata => data r
  | Ferror => error r
  | Fsuccess => VBoolean (success r)
  end.

(** The run-time object a typed Result is: what is left of it once the
    types are erased. *)
Definition erase (r : Result) : CommonJS.JsObject :=
  [ ("data", data r)
  ; ("error", error r)
  ; ("success", VBoolean (success r)) ].

Definition erase_completion (c : Completion Result)
  : Completion CommonJS.JsObject :=
  match c with
  | Normal r => Normal (erase r)
  | Throw e => Throw e
  end.

Definition erase_promise (p : Promise Result) : Promise CommonJS.JsObject :=
  match p with
  | Pending => Pending
  | Fulfilled r => Fulfilled (erase r)
  | Rejected e => Rejected e
  end.

(* ===================================================================== *)
(** ** The Result object in the caller's hands *)
(* ===================================================================== *)

(** [o.key = v] on the object an object literal made.  Its properties are
    writable, so an existing property takes the new value in place; the
    object is extensible, so a new property is added at the end.  Nothing
    in the source freezes the object or marks a field [readonly]. *)
Fixpoint set_property (o : CommonJS.JsObject) (key : string) (v : Value)
  : CommonJS.JsObject :=
  match o with
  | [] => [(key, v)]
  | (k, x) :: o' =>
      if String.eqb k key then (k, v) :: o'
      else (k, x) :: set_property o' key v
  end.








(* ===================================================================== *)
(** ** The Result invariant, as predicates *)
(* ===================================================================== *)

(** Exactly one of [data] and [error] is not [null]. *)
Definition exactly_one_populated (r : Result) : Prop :=
  xorb (populated (data r)) (populated (error r)) = true.

(** [success] is true exactly when [data] is the populated field. *)
Definition success_agrees (r : Result) : Prop :=
  success r = true <-> populated (data r) = true.

Definition one_payload_invariant (r : Result) : Prop :=
  exactly_one_populated r /\ success_agrees r.

(** The field [success] selects: [data] of a success, [error] of a
    failure. *)
Definition payload (r : Result) : Value :=
  if success r then data r else error r.

(** The other field. *)
Definition spare (r : Result) : Value :=
  if success r then error r else data r.

(* ===================================================================== *)
(** ** Counting invocations *)
(* ===================================================================== *)

(** The thunk [f], with a counter beside its world that every invocation
    bumps, whether the body returns or throws. *)
Definition counted {W} (f : Thunk W) : Thunk (nat * W) :=
  mkExec (fun nw =>
    let '(n, w) := nw in
    let '(c, w') := runExec f w in
    (c, (S n, w'))).

(* ===================================================================== *)
(** ** Concrete callbacks and promises *)
(* ===================================================================== *)

Module Scenarios.

(** [new C(...)] / an object literal: allocate at the end of the heap. *)
Definition new (cls : Class) (props : list (string * Value))
  : Exec Heap Value :=
  mkExec (fun h : Heap =>
    (Normal (VObject (List.length h)), (h ++ [mkObj cls props])%list)).

Definition new_error (cls : Class) (message : string) : Exec Heap Value :=
  new cls [("message", VString message)].

(** [() => 42] *)
Definition returns_42 : Thunk Heap := ret (VNumber 42).

(** [() => {}] *)
Definition returns_undefined : Thunk Heap := ret VUndefined.

(** [() => null] *)
Definition returns_null : Thunk Heap := ret VNull.

(** [() => { throw new RangeError("bad") }] *)
Definition throws_RangeError : Thunk Heap :=
  e <- new_error CRangeError "bad" ;;
  raise e.

(** [() => { throw null }] *)
Definition throws_null : Thunk Heap := raise VNull.

(** [() => { throw undefined }] *)
Definition throws_undefined : Thunk Heap := raise VUndefined.

(** [() => { throw "oops" }] *)
Definition throws_string : Thunk Heap := raise (VString "oops").

(** [() => { throw 404 }] *)
Definition throws_number : Thunk Heap := raise (VNumber 404).

(** [() => { throw { code: 1 } }] *)
Definition throws_plain_object : Thunk Heap :=
  o <- new CObject [("code", VNumber 1)] ;;
  raise o.

(** A heap that already holds [new Error("net down")] at reference 0. *)
Definition net_down_heap : Heap :=
  [mkObj CError [("message", VString "net down")]].

(** [Promise.resolve("ok")] *)
Definition resolved_ok : Promise Value := Fulfilled (VString "ok").

(** [Promise.reject(e)] for the error object at reference 0. *)
Definition rejected_net_down : Promise Value := Rejected (VObject 0).

(** [new Promise(() => {})]: never settles. *)
Definition never : Promise Value := Pending.

End Scenarios.


(* ===================================================================== *)
(** ** Wrapping several callbacks *)
(* ===================================================================== *)

(** [callbacks.map(tryCatchSync)]: every callback wrapped, in order. *)
Fixpoint wrap_each {W} (callbacks : list (Thunk W))
  : Exec W (list Result) :=
  match callbacks with
  | [] => ret []
  | callback :: rest =>
      r <- tryCatchSync callback ;;
      rs <- wrap_each rest ;;
      ret (r :: rs)
  end.

(** The world after calling every callback in order, each from the world
    the one before left, whether it returned or threw. *)
Definition world_after_all {W} (callbacks : list (Thunk W)) (w : W) : W :=
  fold_left (fun w0 callback => snd (runExec (call callback) w0)) callbacks w.

(* ===================================================================== *)
(** ** Equations of the two monads *)
(* ===================================================================== *)

Section ExecFacts.
Context {W : Type}.

Lemma run_ret {A} (a : A) (w : W) :
  runExec (ret a) w = (Normal a, w).
Proof. reflexivity. Qed.

Lemma run_raise {A} (c : Value) (w : W) :
  runExec (raise c : Exec W A) w = (Throw c, w).
Proof. reflexivity. Qed.

Lemma run_call (f : Thunk W) (w : W) :
  runExec (call f) w = runExec f w.
Proof. reflexivity. Qed.

Lemma run_bind {A B} (m : Exec W A) (f : A -> Exec W B) (w : W) :
  runExec (bind m f) w =
  match runExec m w with
  | (Normal a, w') => runExec (f a) w'
  | (Throw c, w') => (Throw c, w')
  end.
Proof. reflexivity. Qed.

Lemma run_catch {A} (m : Exec W A) (h : Value -> Exec W A) (w : W) :
  runExec (catch m h) w =
  match runExec m w with
  | (Normal a, w') => (Normal a, w')
  | (Throw c, w') => runExec (h c) w'
  end.
Proof. reflexivity. Qed.

(** A handler that cannot throw makes the whole [try]/[catch] unable to
    throw. *)
Lemma catch_total {A} (m : Exec W A) (h : Value -> Exec W A) (w : W) :
  (forall c w0, exists a w1, runExec (h c) w0 = (Normal a, w1)) ->
  exists a w1, runExec (catch m h) w = (Normal a, w1).
Proof.
  intros Hh. rewrite run_catch.
  destruct (runExec m w) as [[a | c] w'].
  - exists a, w'. reflexivity.
  - apply Hh.
Qed.

End ExecFacts.

Section AsyncFacts.

Lemma async_ret {A} (a : A) : async (ret a) = Fulfilled a.
Proof. reflexivity. Qed.

Lemma async_raise {A} (c : Value) : async (raise c : Async A) = Rejected c.
Proof. reflexivity. Qed.

(** Awaiting a promise and returning what it gave settles like the promise
    itself. *)
Lemma async_await (p : Promise Value) : async (await p) = p.
Proof. destruct p; reflexivity. Qed.

Lemma async_bind {A B} (m : Async A) (f : A -> Async B) :
  async (bind m f) =
  match async m with
  | Pending => Pending
  | Fulfilled a => async (f a)
  | Rejected c => Rejected c
  end.
Proof.
  induction m as [a | c | p k IH]; simpl; try reflexivity.
  destruct p as [| v | c]; [reflexivity | apply IH | apply IH].
Qed.

Lemma async_catch {A} (m : Async A) (h : Value -> Async A) :
  async (catch m h) =
  match async m with
  | Pending => Pending
  | Fulfilled a => Fulfilled a
  | Rejected c => async (h c)
  end.
Proof.
  induction m as [a | c | p k IH]; simpl; try reflexivity.
  destruct p as [| v | c]; [reflexivity | apply IH | apply IH].
Qed.

(** A [try]/[catch] whose handler settles without rejecting never
    rejects. *)
Lemma async_catch_never_rejects {A} (m : Async A) (h : Value -> Async A) :
  (forall c e, async (h c) <> Rejected e) ->
  forall e, async (catch m h) <> Rejected e.
Proof.
  intros Hh e. rewrite async_catch.
  destruct (async m) as [| a | c]; [discriminate | discriminate | apply Hh].
Qed.

End AsyncFacts.

(* ===================================================================== *)
(** ** What the wrappers compute *)
(* ===================================================================== *)

(** [tryCatchSync], run: one run of the callback, its completion wrapped. *)
Lemma tryCatchSync_run {W} (callback : Thunk W) (w : W) :
  runExec (tryCatchSync callback) w =
  match runExec callback w with
  | (Normal v, w') =>
      (Normal {| data := v; error := VNull; success := true |}, w')
  | (Throw c, w') =>
      (Normal {| data := VNull; error := c; success := false |}, w')
  end.
Proof.
  unfold tryCatchSync. rewrite run_catch, run_bind, run_call.
  destruct (runExec callback w) as [[v | c] w']; reflexivity.
Qed.

(** [tryCatch], by the state of the promise it was given. *)
Lemma tryCatch_settles (promise : Promise Value) :
  tryCatch promise =
  match promise with
  | Pending => Pending
  | Fulfilled v =>
      Fulfilled {| data := v; error := VNull; success := true |}
  | Rejected c =>
      Fulfilled {| data := VNull; error := c; success := false |}
  end.
Proof.
  unfold tryCatch. rewrite async_catch, async_bind, async_await.
  destruct promise; reflexivity.
Qed.

(** The same for the compiled functions. *)
Lemma cjs_tryCatchSync_run {W} (callback : Thunk W) (w : W) :
  runExec (CommonJS.tryCatchSync callback) w =
  match runExec callback w with
  | (Normal v, w') =>
      (Normal [("data", v); ("error", VNull); ("success", VBoolean true)],
       w')
  | (Throw c, w') =>
      (Normal [("data", VNull); ("error", c); ("success", VBoolean false)],
       w')
  end.
Proof.
  unfold CommonJS.tryCatchSync. rewrite run_catch, run_bind, run_call.
  destruct (runExec callback w) as [[v | c] w']; reflexivity.
Qed.

Lemma cjs_tryCatch_settles (promise : Promise Value) :
  CommonJS.tryCatch promise =
  match promise with
  | Pending => Pending
  | Fulfilled v =>
      Fulfilled [("data", v); ("error", VNull); ("success", VBoolean true)]
  | Rejected c =>
      Fulfilled [("data", VNull); ("error", c); ("success", VBoolean false)]
  end.
Proof.
  unfold CommonJS.tryCatch. rewrite async_catch, async_bind, async_await.
  destruct promise; reflexivity.
Qed.

(* ===================================================================== *)
(** ** Worked scenarios *)
(* ===================================================================== *)

Import Scenarios.

(** Scenario 1: [tryCatchSync(() => 42)]. *)
Example scenario_1 :
  runExec (tryCatchSync returns_42) [] =
  (Normal {| data := VNumber 42; error := VNull; success := true |}, []).
Proof. reflexivity. Qed.

(** Scenario 2: [tryCatchSync(() => { throw new RangeError("bad") })]: the
    error is the reference to the object the callback allocated. *)
Example scenario_2 :
  runExec (tryCatchSync throws_RangeError) [] =
  (Normal {| data := VNull; error := VObject 0; success := false |},
   [mkObj CRangeError [("message", VString "bad")]]).
Proof. reflexivity. Qed.

(** Scenario 3: [await tryCatch(Promise.resolve("ok"))]. *)
Example scenario_3 :
  tryCatch resolved_ok =
  Fulfilled {| data := VString "ok"; error := VNull; success := true |}.
Proof. reflexivity. Qed.

(** Scenario 4: [await tryCatch(Promise.reject(new Error("net down")))]. *)
Example scenario_4 :
  tryCatch rejected_net_down =
  Fulfilled {| data := VNull; error := VObject 0; success := false |}
  /\ instanceof_Error net_down_heap (VObject 0) = true.
Proof. split; reflexivity. Qed.

(** A promise that never settles leaves the returned promise pending. *)
Example scenario_never : tryCatch never = Pending.
Proof. reflexivity. Qed.

(* ===================================================================== *)
(** ** Properties of the wrappers *)
(* ===================================================================== *)

(** C1. When the wrapped computation returns (thunk) or resolves (promise)
    with a value [v], the wrapper produces exactly the record
    [{data: v, error: null, success: true}]; the sync wrapper leaves the
    world the callback left. *)
Theorem wrapped_value_gives_success_record :
  (forall (W : Type) (callback : Thunk W) (w w' : W) (v : Value),
      runExec (call callback) w = (Normal v, w') ->
      runExec (tryCatchSync callback) w =
      (Normal {| data := v; error := VNull; success := true |}, w'))
  /\
  (forall (promise : Promise Value) (v : Value),
      promise = Fulfilled v ->
      tryCatch promise =
      Fulfilled {| data := v; error := VNull; success := true |}).
Proof.
  split.
  - intros W callback w w' v Hrun.
    rewrite tryCatchSync_run. rewrite run_call in Hrun.
    rewrite Hrun. reflexivity.
  - intros promise v ->. apply tryCatch_settles.
Qed.

Lemma wrapped_value_gives_success_record_witness :
  runExec (tryCatchSync returns_42) [] =
  (Normal {| data := VNumber 42; error := VNull; success := true |}, [])
  /\
  tryCatch resolved_ok =
  Fulfilled {| data := VString "ok"; error := VNull; success := true |}.
Proof.
  split.
  - apply (proj1 wrapped_value_gives_success_record Heap returns_42 [] []
             (VNumber 42)).
    reflexivity.
  - apply (proj2 wrapped_value_gives_success_record resolved_ok
             (VString "ok")).
    reflexivity.
Defined.

(** C2. When the wrapped computation raises (thunk) or rejects (promise)
    with a cause [c], the wrapper produces exactly the record
    [{data: null, error: c, success: false}]: [c] is stored as it was
    raised, whatever it is, and the sync wrapper leaves the world the
    callback left. *)
Theorem wrapped_cause_gives_failure_record :
  (forall (W : Type) (callback : Thunk W) (w w' : W) (c : Value),
      runExec (call callback) w = (Throw c, w') ->
      runExec (tryCatchSync callback) w =
      (Normal {| data := VNull; error := c; success := false |}, w'))
  /\
  (forall (promise : Promise Value) (c : Value),
      promise = Rejected c ->
      tryCatch promise =
      Fulfilled {| data := VNull; error := c; success := false |}).
Proof.
  split.
  - intros W callback w w' c Hrun.
    rewrite tryCatchSync_run. rewrite run_call in Hrun.
    rewrite Hrun. reflexivity.
  - intros promise c ->. apply tryCatch_settles.
Qed.

Lemma wrapped_cause_gives_failure_record_witness :
  runExec (tryCatchSync throws_RangeError) [] =
  (Normal {| data := VNull; error := VObject 0; success := false |},
   [mkObj CRangeError [("message", VString "bad")]])
  /\
  tryCatch rejected_net_down =
  Fulfilled {| data := VNull; error := VObject 0; success := false |}.
Proof.
  split.
  - apply (proj1 wrapped_cause_gives_failure_record Heap throws_RangeError
             [] [mkObj CRangeError [("message", VString "bad")]] (VObject 0)).
    reflexivity.
  - apply (proj2 wrapped_cause_gives_failure_record rejected_net_down
             (VObject 0)).
    reflexivity.
Defined.

(** C3. The wrappers never raise.  [tryCatchSync] completes normally with a
    Result for every callback and every world, also when the callback
    throws; the promise [tryCatch] returns is never rejected, whatever the
    promise it was given; and it is fulfilled as soon as that promise
    settles. *)
Theorem wrappers_never_raise :
  (forall (W : Type) (callback : Thunk W) (w : W),
      exists r w', runExec (tryCatchSync callback) w = (Normal r, w'))
  /\
  (forall (promise : Promise Value) (e : Value),
      tryCatch promise <> Rejected e)
  /\
  (forall (promise : Promise Value),
      promise <> Pending ->
      exists r, tryCatch promise = Fulfilled r).
Proof.
  split; [| split].
  - intros W callback w. unfold tryCatchSync.
    apply catch_total. intros c w0.
    eexists. eexists. reflexivity.
  - intros promise e. unfold tryCatch.
    apply async_catch_never_rejects. intros c e'. discriminate.
  - intros promise Hsettled. rewrite tryCatch_settles.
    destruct promise as [| v | c].
    + contradiction.
    + eexists. reflexivity.
    + eexists. reflexivity.
Qed.

Lemma wrappers_never_raise_witness :
  (exists r w', runExec (tryCatchSync throws_string) [] = (Normal r, w'))
  /\
  (exists r, tryCatch rejected_net_down = Fulfilled r).
Proof.
  split.
  - apply (proj1 wrappers_never_raise Heap throws_string []).
  - apply (proj2 (proj2 wrappers_never_raise) rejected_net_down).
    discriminate.
Defined.

(** Every Result a wrapper produces has one of the two shapes of the
    object literals in the source. *)
Lemma produced_by_tryCatchSync {W} (callback : Thunk W) (w w' : W) r :
  runExec (tryCatchSync callback) w = (Normal r, w') ->
  (exists v, r = {| data := v; error := VNull; success := true |})
  \/ (exists c, r = {| data := VNull; error := c; success := false |}).
Proof.
  rewrite tryCatchSync_run.
  destruct (runExec callback w) as [[v | c] w0]; intros H;
    injection H as <- _; eauto.
Qed.

Lemma produced_by_tryCatch (promise : Promise Value) r :
  tryCatch promise = Fulfilled r ->
  (exists v, r = {| data := v; error := VNull; success := true |})
  \/ (exists c, r = {| data := VNull; error := c; success := false |}).
Proof.
  rewrite tryCatch_settles.
  destruct promise as [| v | c]; intros H;
    [discriminate | injection H as <- | injection H as <-]; eauto.
Qed.

(** What holds of the two shapes. *)
Lemma shape_consistent r :
  (exists v, r = {| data := v; error := VNull; success := true |})
  \/ (exists c, r = {| data := VNull; error := c; success := false |}) ->
  (Success r \/ Failure r)
  /\ spare r = VNull
  /\ (populated (payload r) = true -> one_payload_invariant r).
Proof.
  unfold Success, Failure, one_payload_invariant, exactly_one_populated,
    success_agrees, spare, payload.
  intros [[v ->] | [c ->]]; simpl.
  - split; [left; split; reflexivity |].
    split; [reflexivity |].
    intros Hv. rewrite Hv. split; [reflexivity | split; reflexivity].
  - split; [right; split; reflexivity |].
    split; [reflexivity |].
    intros Hc. rewrite Hc. split; [reflexivity | split; discriminate].
Qed.

(** C4, as stated, fails: a callback that returns [null], a promise that
    resolves with [null] and a callback that throws [null] each give a
    Result whose [data] and [error] are both [null]. *)
Lemma null_payload_leaves_both_fields_absent :
  (exists r w',
      runExec (tryCatchSync returns_null) [] = (Normal r, w')
      /\ populated (data r) = false /\ populated (error r) = false
      /\ ~ one_payload_invariant r)
  /\
  (exists r,
      tryCatch (Fulfilled VNull) = Fulfilled r
      /\ ~ one_payload_invariant r)
  /\
  (exists r w',
      runExec (tryCatchSync throws_null) [] = (Normal r, w')
      /\ ~ exactly_one_populated r).
Proof.
  split; [| split].
  - exists {| data := VNull; error := VNull; success := true |}, [].
    split; [reflexivity |]. split; [reflexivity |]. split; [reflexivity |].
    intros [Hone _]. discriminate Hone.
  - exists {| data := VNull; error := VNull; success := true |}.
    split; [reflexivity |].
    intros [Hone _]. discriminate Hone.
  - exists {| data := VNull; error := VNull; success := false |}, [].
    split; [reflexivity |].
    intros Hone. discriminate Hone.
Qed.

(** C4, amended.  In every Result a wrapper produces, the field [success]
    does not select is [null] ([error] of a success, [data] of a failure:
    the Result is a [Success] or a [Failure]), so [data] and [error] are
    never both populated; and when the value or cause the wrapped
    computation gave is itself not [null], exactly one of [data] and
    [error] is not [null] and [success] is true exactly when [data] is the
    populated one. *)
Theorem produced_result_is_consistent :
  (forall (W : Type) (callback : Thunk W) (w w' : W) (r : Result),
      runExec (tryCatchSync callback) w = (Normal r, w') ->
      (Success r \/ Failure r)
      /\ spare r = VNull
      /\ (populated (payload r) = true -> one_payload_invariant r))
  /\
  (forall (promise : Promise Value) (r : Result),
      tryCatch promise = Fulfilled r ->
      (Success r \/ Failure r)
      /\ spare r = VNull
      /\ (populated (payload r) = true -> one_payload_invariant r)).
Proof.
  split.
  - intros W callback w w' r Hrun.
    apply shape_consistent. exact (produced_by_tryCatchSync _ _ Hrun).
  - intros promise r Hrun.
    apply shape_consistent. exact (produced_by_tryCatch _ Hrun).
Qed.

Lemma produced_result_is_consistent_witness :
  one_payload_invariant
    {| data := VNumber 42; error := VNull; success := true |}
  /\
  one_payload_invariant
    {| data := VNull; error := VObject 0; success := false |}.
Proof.
  split.
  - apply (proj1 produced_result_is_consistent Heap returns_42 [] []
             {| data := VNumber 42; error := VNull; success := true |}).
    + reflexivity.
    + reflexivity.
  - apply (proj2 produced_result_is_consistent rejected_net_down
             {| data := VNull; error := VObject 0; success := false |}).
    + reflexivity.
    + reflexivity.
Defined.

(** C5. One call of [tryCatchSync] invokes the callback exactly once,
    whether it returns or throws: a counter that every invocation of the
    callback bumps goes up by one, and the world after the wrapper is the
    world after one direct call of the callback. *)
Theorem tryCatchSync_invokes_callback_once :
  forall (W : Type) (callback : Thunk W) (n : nat) (w : W),
    snd (runExec (tryCatchSync (counted callback)) (n, w))
    = (S n, snd (runExec (call callback) w))
    /\
    snd (runExec (tryCatchSync callback) w) = snd (runExec (call callback) w).
Proof.
  intros W callback n w. rewrite !tryCatchSync_run, run_call.
  unfold counted; simpl.
  destruct (runExec callback w) as [[v | c] w']; split; reflexivity.
Qed.

(** C6. A callback that returns [undefined] without throwing gives
    [{data: undefined, error: null, success: true}]: a success whose data
    is [undefined], not a failure. *)
Theorem undefined_return_is_success :
  forall (W : Type) (callback : Thunk W) (w w' : W),
    runExec (call callback) w = (Normal VUndefined, w') ->
    exists r,
      runExec (tryCatchSync callback) w = (Normal r, w')
      /\ r = {| data := VUndefined; error := VNull; success := true |}
      /\ success r = true
      /\ data r = VUndefined
      /\ Success r
      /\ ~ Failure r.
Proof.
  intros W callback w w' Hrun.
  rewrite tryCatchSync_run. rewrite run_call in Hrun. rewrite Hrun.
  eexists. split; [reflexivity |].
  split; [reflexivity |]. split; [reflexivity |]. split; [reflexivity |].
  split.
  - split; reflexivity.
  - intros [Hdata _]. discriminate Hdata.
Qed.

Lemma undefined_return_is_success_witness :
  exists r,
    runExec (tryCatchSync returns_undefined) [] = (Normal r, [])
    /\ r = {| data := VUndefined; error := VNull; success := true |}
    /\ success r = true
    /\ data r = VUndefined
    /\ Success r
    /\ ~ Failure r.
Proof.
  apply (@undefined_return_is_success Heap returns_undefined [] []).
  reflexivity.
Defined.

(** C7. Whatever is raised or rejected is a valid error payload: for every
    value [c], of any kind, the Result's [error] is [c] itself and
    [success] is false.  Nothing is required of [c]: a string, a number or
    a plain object is captured like an [Error] instance. *)
Theorem any_raised_value_is_captured :
  (forall (W : Type) (callback : Thunk W) (w w' : W) (c : Value),
      runExec (call callback) w = (Throw c, w') ->
      exists r,
        runExec (tryCatchSync callback) w = (Normal r, w')
        /\ error r = c /\ success r = false)
  /\
  (forall (promise : Promise Value) (c : Value),
      promise = Rejected c ->
      exists r,
        tryCatch promise = Fulfilled r
        /\ error r = c /\ success r = false).
Proof.
  split.
  - intros W callback w w' c Hrun.
    rewrite tryCatchSync_run. rewrite run_call in Hrun. rewrite Hrun.
    eexists. split; [reflexivity |]. split; reflexivity.
  - intros promise c ->. rewrite tryCatch_settles.
    eexists. split; [reflexivity |]. split; reflexivity.
Qed.

Lemma any_raised_value_is_captured_witness :
  (exists r,
      runExec (tryCatchSync throws_string) [] = (Normal r, [])
      /\ error r = VString "oops" /\ success r = false)
  /\
  (exists r,
      runExec (tryCatchSync throws_number) [] = (Normal r, [])
      /\ error r = VNumber 404 /\ success r = false)
  /\
  (exists r,
      runExec (tryCatchSync throws_plain_object) [] =
      (Normal r, [mkObj CObject [("code", VNumber 1)]])
      /\ error r = VObject 0 /\ success r = false)
  /\
  instanceof_Error [mkObj CObject [("code", VNumber 1)]] (VObject 0) = false
  /\
  (exists r,
      tryCatch (Rejected (VString "oops")) = Fulfilled r
      /\ error r = VString "oops" /\ success r = false).
Proof.
  split; [| split; [| split; [| split]]].
  - apply (proj1 any_raised_value_is_captured Heap throws_string [] []
             (VString "oops")).
    reflexivity.
  - apply (proj1 any_raised_value_is_captured Heap throws_number [] []
             (VNumber 404)).
    reflexivity.
  - apply (proj1 any_raised_value_is_captured Heap throws_plain_object []
             [mkObj CObject [("code", VNumber 1)]] (VObject 0)).
    reflexivity.
  - reflexivity.
  - apply (proj2 any_raised_value_is_captured (Rejected (VString "oops"))
             (VString "oops")).
    reflexivity.
Defined.

(** C9. A callback that throws [null] or [undefined] still gives a failure:
    [success] is false and [error] is the thrown value, with [data] null.
    For [throw null] the record is [{data: null, error: null,
    success: false}], told from a success by [success] alone.  The same
    holds of a promise rejected with [null] or [undefined]. *)
Theorem null_or_undefined_cause_is_failure :
  (forall (W : Type) (callback : Thunk W) (w w' : W) (c : Value),
      c = VNull \/ c = VUndefined ->
      runExec (call callback) w = (Throw c, w') ->
      exists r,
        runExec (tryCatchSync callback) w = (Normal r, w')
        /\ success r = false /\ error r = c /\ data r = VNull
        /\ Failure r
        /\ (c = VNull ->
            r = {| data := VNull; error := VNull; success := false |}))
  /\
  (forall (promise : Promise Value) (c : Value),
      c = VNull \/ c = VUndefined ->
      promise = Rejected c ->
      exists r,
        tryCatch promise = Fulfilled r
        /\ success r = false /\ error r = c /\ data r = VNull).
Proof.
  split.
  - intros W callback w w' c _ Hrun.
    rewrite tryCatchSync_run. rewrite run_call in Hrun. rewrite Hrun.
    eexists. split; [reflexivity |].
    split; [reflexivity |]. split; [reflexivity |]. split; [reflexivity |].
    split.
    + split; reflexivity.
    + intros ->. reflexivity.
  - intros promise c _ ->. rewrite tryCatch_settles.
    eexists. split; [reflexivity |].
    split; [reflexivity |]. split; reflexivity.
Qed.

Lemma null_or_undefined_cause_is_failure_witness :
  (exists r,
      runExec (tryCatchSync throws_null) [] = (Normal r, [])
      /\ success r = false /\ error r = VNull /\ data r = VNull
      /\ Failure r
      /\ (VNull = VNull ->
          r = {| data := VNull; error := VNull; success := false |}))
  /\
  (exists r,
      runExec (tryCatchSync throws_undefined) [] = (Normal r, [])
      /\ success r = false /\ error r = VUndefined /\ data r = VNull
      /\ Failure r
      /\ (VUndefined = VNull ->
          r = {| data := VNull; error := VNull; success := false |})).
Proof.
  split.
  - apply (proj1 null_or_undefined_cause_is_failure Heap throws_null [] []
             VNull).
    + left. reflexivity.
    + reflexivity.
  - apply (proj1 null_or_undefined_cause_is_failure Heap throws_undefined
             [] [] VUndefined).
    + right. reflexivity.
    + reflexivity.
Defined.

(** Reading a property of the erased record gives the field of the typed
    one, and the record has no other property. *)
Lemma erase_fields (r : Result) :
  (forall f : Field, CommonJS.get (erase r) (field_name f) = field r f)
  /\ CommonJS.keys (erase r) = map field_name [Fdata; Ferror; Fsuccess].
Proof. split; [intros []; reflexivity | reflexivity]. Qed.

(** C10. The compiled CommonJS functions compute what the TypeScript
    functions compute.  For every callback and world, [tryCatchSync]
    compiled completes as the source does, with the run-time object of the
    source's Result and the same world; for every promise, [tryCatch]
    compiled returns a promise in the state of the source's, fulfilled with
    the run-time object of its Result; and that object has exactly the
    properties [data], [error] and [success], holding the Result's
    fields. *)
Theorem compiled_agrees_with_source :
  (forall (W : Type) (callback : Thunk W) (w : W),
      runExec (CommonJS.tryCatchSync callback) w =
      (erase_completion (fst (runExec (tryCatchSync callback) w)),
       snd (runExec (tryCatchSync callback) w)))
  /\
  (forall (promise : Promise Value),
      CommonJS.tryCatch promise = erase_promise (tryCatch promise))
  /\
  (forall (r : Result),
      CommonJS.get (erase r) "data" = data r
      /\ CommonJS.get (erase r) "error" = error r
      /\ CommonJS.get (erase r) "success" = VBoolean (success r)
      /\ CommonJS.keys (erase r) = ["data"; "error"; "success"]).
Proof.
  split; [| split].
  - intros W callback w.
    rewrite cjs_tryCatchSync_run, tryCatchSync_run.
    destruct (runExec callback w) as [[v | c] w']; reflexivity.
  - intros promise.
    rewrite cjs_tryCatch_settles, tryCatch_settles.
    destruct promise; reflexivity.
  - intros r. destruct (erase_fields r) as [Hget Hkeys].
    split; [exact (Hget Fdata) |].
    split; [exact (Hget Ferror) |].
    split; [exact (Hget Fsuccess) | exact Hkeys].
Qed.


(* ===================================================================== *)
(** ** Further properties of the wrappers *)
(* ===================================================================== *)

(** X1. The Result of [tryCatchSync] loses nothing of how the callback
    completed: the callback returned [data] when [success] is true and threw
    [error] when it is false.  So two runs that give the same Result had
    callbacks that completed the same way, also when the value returned or
    thrown is [null]. *)
Theorem tryCatchSync_result_determines_completion :
  (forall (W : Type) (callback : Thunk W) (w w' : W) (r : Result),
      runExec (tryCatchSync callback) w = (Normal r, w') ->
      runExec (call callback) w =
      (if success r then Normal (data r) else Throw (error r), w'))
  /\
  (forall (W1 W2 : Type) (callback1 : Thunk W1) (callback2 : Thunk W2)
          (w1 : W1) (w2 : W2),
      fst (runExec (tryCatchSync callback1) w1)
      = fst (runExec (tryCatchSync callback2) w2) ->
      fst (runExec (call callback1) w1) = fst (runExec (call callback2) w2)).
Proof.
  split.
  - intros W callback w w' r. rewrite tryCatchSync_run, run_call.
    destruct (runExec callback w) as [[v | c] w0]; intros H;
      injection H as <- <-; reflexivity.
  - intros W1 W2 callback1 callback2 w1 w2.
    rewrite !tryCatchSync_run, !run_call.
    destruct (runExec callback1 w1) as [[v1 | c1] u1];
      destruct (runExec callback2 w2) as [[v2 | c2] u2]; simpl; intros H;
      try discriminate H; injection H as <-; reflexivity.
Qed.

Lemma tryCatchSync_result_determines_completion_witness :
  runExec (call throws_null) [] =
  (if success {| data := VNull; error := VNull; success := false |}
   then Normal (data {| data := VNull; error := VNull; success := false |})
   else Throw (error {| data := VNull; error := VNull; success := false |}),
   ([] : Heap))
  /\
  fst (runExec (call returns_42) ([] : Heap))
  = fst (runExec (call returns_42) net_down_heap).
Proof.
  split.
  - apply (proj1 tryCatchSync_result_determines_completion Heap throws_null
             [] [] {| data := VNull; error := VNull; success := false |}).
    reflexivity.
  - apply (proj2 tryCatchSync_result_determines_completion Heap Heap
             returns_42 returns_42 [] net_down_heap).
    reflexivity.
Defined.

(** X2. The promise [tryCatch] returns reflects the promise it was given:
    it is pending exactly when the given promise is pending; when it is
    fulfilled with a Result, the given promise was fulfilled with [data] if
    [success] is true and rejected with [error] otherwise; so promises in
    different states never give the same outcome. *)
Theorem tryCatch_reflects_promise :
  (forall (promise : Promise Value),
      tryCatch promise = Pending <-> promise = Pending)
  /\
  (forall (promise : Promise Value) (r : Result),
      tryCatch promise = Fulfilled r ->
      promise = if success r then Fulfilled (data r) else Rejected (error r))
  /\
  (forall (promise1 promise2 : Promise Value),
      tryCatch promise1 = tryCatch promise2 -> promise1 = promise2).
Proof.
  split; [| split].
  - intros promise. rewrite tryCatch_settles.
    destruct promise; split; intros H; try discriminate H; reflexivity.
  - intros promise r. rewrite tryCatch_settles.
    destruct promise; intros H; try discriminate H;
      injection H as <-; reflexivity.
  - intros promise1 promise2. rewrite !tryCatch_settles.
    destruct promise1; destruct promise2; intros H;
      try discriminate H; try reflexivity; injection H as <-; reflexivity.
Qed.

Lemma tryCatch_reflects_promise_witness :
  Rejected VNull =
  (if success {| data := VNull; error := VNull; success := false |}
   then Fulfilled (data {| data := VNull; error := VNull; success := false |})
   else Rejected (error {| data := VNull; error := VNull; success := false |}))
  /\
  never = Pending.
Proof.
  split.
  - apply (proj1 (proj2 tryCatch_reflects_promise) (Rejected VNull)
             {| data := VNull; error := VNull; success := false |}).
    reflexivity.
  - apply (proj1 (proj1 tryCatch_reflects_promise never)).
    reflexivity.
Defined.

(** One step of [wrap_each]. *)
Lemma wrap_each_cons_run {W} (callback : Thunk W) rest (w : W) :
  runExec (wrap_each (callback :: rest)) w =
  match runExec (tryCatchSync callback) w with
  | (Normal r, w0) =>
      match runExec (wrap_each rest) w0 with
      | (Normal rs, w1) => (Normal (r :: rs), w1)
      | (Throw e, w1) => (Throw e, w1)
      end
  | (Throw e, w0) => (Throw e, w0)
  end.
Proof. reflexivity. Qed.

Lemma wrap_each_run {W} (callbacks : list (Thunk W)) (w : W) :
  exists rs : list Result,
    runExec (wrap_each callbacks) w = (Normal rs, world_after_all callbacks w)
    /\ List.length rs = List.length callbacks.
Proof.
  revert w. induction callbacks as [| callback rest IH]; intros w.
  - exists []. split; reflexivity.
  - rewrite wrap_each_cons_run, tryCatchSync_run.
    unfold world_after_all; simpl fold_left. rewrite run_call.
    destruct (runExec callback w) as [[v | c] w0]; simpl snd;
      destruct (IH w0) as (rs & Hrs & Hlen); rewrite Hrs;
      eexists; (split; [reflexivity | simpl; rewrite Hlen; reflexivity]).
Qed.

(** Calling counted callbacks in order bumps the counter once for each. *)
Lemma world_after_all_counted {W} (callbacks : list (Thunk W)) n (w : W) :
  world_after_all (map counted callbacks) (n, w)
  = (n + List.length callbacks, world_after_all callbacks w).
Proof.
  revert n w. induction callbacks as [| callback rest IH]; intros n w.
  - simpl. rewrite Nat.add_0_r. reflexivity.
  - change (world_after_all (map counted (callback :: rest)) (n, w))
      with (world_after_all (map counted rest)
              (snd (runExec (call (counted callback)) (n, w)))).
    change (world_after_all (callback :: rest) w)
      with (world_after_all rest (snd (runExec (call callback) w))).
    rewrite !run_call. unfold counted at 2. simpl runExec.
    destruct (runExec callback w) as [c w0]. simpl snd.
    rewrite IH. simpl List.length. rewrite Nat.add_succ_r. reflexivity.
Qed.

(** X3. Wrapping a list of callbacks one after the other always completes
    normally, with one Result per callback, and leaves the world that
    calling every callback in order leaves: a callback that throws stops
    none of the later ones from running, and each one is invoked exactly
    once (a counter every invocation bumps goes up by the number of
    callbacks). *)
Theorem wrap_each_runs_every_callback :
  forall (W : Type) (callbacks : list (Thunk W)) (w : W),
    (exists rs : list Result,
        runExec (wrap_each callbacks) w
        = (Normal rs, world_after_all callbacks w)
        /\ List.length rs = List.length callbacks)
    /\
    (forall (n : nat),
        snd (runExec (wrap_each (map counted callbacks)) (n, w))
        = (n + List.length callbacks, world_after_all callbacks w)).
Proof.
  intros W callbacks w. split.
  - apply wrap_each_run.
  - intros n.
    destruct (wrap_each_run (map counted callbacks) (n, w))
      as (rs & Hrs & _).
    rewrite Hrs. simpl snd. apply world_after_all_counted.
Qed.

(** X4. The object the compiled functions return has the same shape on the
    success and on the failure path: exactly the own properties [data],
    [error] and [success], in that order, with [success] a boolean; and
    the property [success] does not select is [null]. *)
Theorem compiled_result_has_fixed_shape :
  (forall (W : Type) (callback : Thunk W) (w w' : W)
          (o : CommonJS.JsObject),
      runExec (CommonJS.tryCatchSync callback) w = (Normal o, w') ->
      CommonJS.keys o = ["data"; "error"; "success"]
      /\ (CommonJS.get o "success" = VBoolean true
          /\ CommonJS.get o "error" = VNull
          \/ CommonJS.get o "success" = VBoolean false
             /\ CommonJS.get o "data" = VNull))
  /\
  (forall (promise : Promise Value) (o : CommonJS.JsObject),
      CommonJS.tryCatch promise = Fulfilled o ->
      CommonJS.keys o = ["data"; "error"; "success"]
      /\ (CommonJS.get o "success" = VBoolean true
          /\ CommonJS.get o "error" = VNull
          \/ CommonJS.get o "success" = VBoolean false
             /\ CommonJS.get o "data" = VNull)).
Proof.
  split.
  - intros W callback w w' o. rewrite cjs_tryCatchSync_run.
    destruct (runExec callback w) as [[v | c] w0]; intros H;
      injection H as <- _; (split; [reflexivity |]);
      [left | right]; split; reflexivity.
  - intros promise o. rewrite cjs_tryCatch_settles.
    destruct promise as [| v | c]; intros H; try discriminate H;
      injection H as <-; (split; [reflexivity |]);
      [left | right]; split; reflexivity.
Qed.

Lemma compiled_result_has_fixed_shape_witness :
  (CommonJS.keys [("data", VNull); ("error", VObject 0);
                  ("success", VBoolean false)]
   = ["data"; "error"; "success"]
   /\ (CommonJS.get [("data", VNull); ("error", VObject 0);
                     ("success", VBoolean false)] "success" = VBoolean true
       /\ CommonJS.get [("data", VNull); ("error", VObject 0);
                        ("success", VBoolean false)] "error" = VNull
       \/ CommonJS.get [("data", VNull); ("error", VObject 0);
                        ("success", VBoolean false)] "success"
          = VBoolean false
          /\ CommonJS.get [("data", VNull); ("error", VObject 0);
                           ("success", VBoolean false)] "data" = VNull))
  /\
  (CommonJS.keys [("data", VString "ok"); ("error", VNull);
                  ("success", VBoolean true)]
   = ["data"; "error"; "success"]
   /\ (CommonJS.get [("data", VString "ok"); ("error", VNull);
                     ("success", VBoolean true)] "success" = VBoolean true
       /\ CommonJS.get [("data", VString "ok"); ("error", VNull);
                        ("success", VBoolean true)] "error" = VNull
       \/ CommonJS.get [("data", VString "ok"); ("error", VNull);
                        ("success", VBoolean true)] "success"
          = VBoolean false
          /\ CommonJS.get [("data", VString "ok"); ("error", VNull);
                           ("success", VBoolean true)] "data" = VNull)).
Proof.
  split.
  - apply (proj1 compiled_result_has_fixed_shape Heap throws_RangeError []
             [mkObj CRangeError [("message", VString "bad")]]).
    reflexivity.
  - apply (proj2 compiled_result_has_fixed_shape resolved_ok).
    reflexivity.
Defined.

(** X5. The two wrappers agree: [tryCatch], given a promise settled the way
    a callback completed (fulfilled with what it returned, rejected with
    what it threw), fulfils with the very Result [tryCatchSync] gives for
    that callback. *)
Theorem tryCatch_agrees_with_tryCatchSync :
  forall (W : Type) (callback : Thunk W) (w : W),
    tryCatch
      match fst (runExec (call callback) w) with
      | Normal v => Fulfilled v
      | Throw c => Rejected c
      end
    =
    match fst (runExec (tryCatchSync callback) w) with
    | Normal r => Fulfilled r
    | Throw e => Rejected e
    end.
Proof.
  intros W callback w. rewrite tryCatch_settles, tryCatchSync_run, run_call.
  destruct (runExec callback w) as [[v | c] w']; reflexivity.
Qed.

(* ===================================================================== *)
(** ** The Result object under reads and assignments *)
(* ===================================================================== *)

Lemma get_set_same (o : CommonJS.JsObject) (key : string) (v : Value) :
  CommonJS.get (set_property o key v) key = v.
Proof.
  induction o as [| [k x] o IH]; simpl.
  - rewrite String.eqb_refl. reflexivity.
  - destruct (String.eqb k key) eqn:E; simpl; rewrite E.
    + reflexivity.
    + exact IH.
Qed.










